(** * conanfile.py: the Conan recipe of the data-structure repository

  The recipe is a Python class [Conan(ConanFile)] with three class
  attributes ([settings], [generators], [default_options]) and two methods
  ([requirements], [layout]) that do nothing but call into the package
  manager: [self.requires(ref)] three times and [cmake_layout(self)] once.

  The package manager is not part of the repository.  It is therefore kept
  abstract (class [ConanTool]): every statement about the methods holds for
  whatever the tool does with the calls it receives. *)

From Stdlib Require Import String Ascii List.
From stdpp Require Import base option list gmap strings.

Local Open Scope string_scope.
Local Open Scope list_scope.

(** ** Strings as the package manager reads them *)

Module Text.

(** [s.split(sep, 1)] when [sep] occurs in [s]: the text before the first
    [sep] and the text after it. *)
Fixpoint split_once (sep : ascii) (s : string) : option (string * string) :=
  match s with
  | EmptyString => None
  | String c rest =>
      if Ascii.eqb c sep then Some (EmptyString, rest)
      else match split_once sep rest with
           | Some (before, after) => Some (String c before, after)
           | None => None
           end
  end.

(** Shell-style matching as in Python's [fnmatchcase], for patterns made of
    literal characters, [*] (any run of characters) and [?] (any single
    character).  Bracket classes are not needed by the recipe's patterns
    and are read as literal characters here. *)
Fixpoint fnmatchcase_pat (pat : string) : string -> bool :=
  match pat with
  | EmptyString => fun s => match s with EmptyString => true | _ => false end
  | String p pat' =>
      if Ascii.eqb p "*" then
        fix star (s : string) : bool :=
          fnmatchcase_pat pat' s
          || match s with
             | EmptyString => false
             | String _ s' => star s'
             end
      else
        fun s =>
          match s with
          | EmptyString => false
          | String c s' =>
              (Ascii.eqb p "?" || Ascii.eqb p c) && fnmatchcase_pat pat' s'
          end
  end.

(** Argument order of Python's [fnmatchcase(name, pat)]. *)
Definition fnmatchcase (name pat : string) : bool := fnmatchcase_pat pat name.

End Text.

(** ** Recipe references and scoped options *)

Module Ref.

(** A requirement is written [name/version]. *)
Definition parse (ref : string) : option (string * string) :=
  Text.split_once "/" ref.

Definition name (ref : string) : option string := fst <$> parse ref.
Definition version (ref : string) : option string := snd <$> parse ref.

(** A key of [default_options] is written [pattern:option]; the pattern
    selects the packages the option value is given to. *)
Definition scoped_option (key : string) : option (string * string) :=
  Text.split_once ":" key.

(** The pattern of a scoped option is itself [name/version-pattern]. *)
Definition version_pattern (key : string) : option string :=
  scoped_option key ≫= λ '(pattern, _), snd <$> parse pattern.

(** Does the option declared under [key] reach the package [ref]?  The
    package manager matches the reference text against the pattern. *)
Definition applies (key ref : string) : bool :=
  match scoped_option key with
  | Some (pattern, _) => Text.fnmatchcase ref pattern
  | None => false
  end.

(** The option a key sets, e.g. [shared]. *)
Definition option_name (key : string) : option string :=
  snd <$> scoped_option key.

(** The values that the options [opts] give to option [opt] of the package
    [ref]: one per entry whose pattern reaches [ref]. *)
Definition option_values (opts : gmap string bool) (opt ref : string)
  : list bool :=
  omap (λ entry : string * bool,
          if applies entry.1 ref && bool_decide (option_name entry.1 = Some opt)
          then Some entry.2 else None)
       (map_to_list opts).

End Ref.

(** ** Recipe instances and the package manager *)

(** What an instance of a recipe class carries: the three declarative
  attributes, and whatever the package manager keeps on the object
  (requirement list, folders, resolved settings, ...). *)
Record Instance (T : Type) := mkInstance {
attr_settings : list string;
attr_generators : list string;
attr_default_options : gmap string bool;
tool_state : T
}.
Arguments mkInstance {T}.
Arguments attr_settings {T}.
Arguments attr_generators {T}.
Arguments attr_default_options {T}.
Arguments tool_state {T}.

(** The two entry points of the package manager that the recipe calls.  Both
  receive the recipe object and either raise or return it, possibly
  modified.  [T] is the tool's state on the object, [E] its errors. *)
Class ConanTool (T E : Type) := {
(** [ConanFile.requires(self, ref)] *)
ConanFile_requires : string -> Instance T -> E + Instance T;
(** [conan.tools.cmake.cmake_layout(conanfile)] *)
tools_cmake_layout : Instance T -> E + Instance T
}.


(** ** Method bodies: state, exceptions and the calls made *)

Module Py.

(** A Python exception reaching the caller of a recipe method is either one
    the package manager raised inside a call, or one raised by a [raise]
    statement of the recipe itself. *)
Inductive exn (E : Type) :=
| ToolError (e : E)
| RecipeError (msg : string).
Arguments ToolError {E}.
Arguments RecipeError {E}.

(** The calls a method makes into the package manager. *)
Inductive Call :=
| CallRequires (ref : string)
| CallCmakeLayout.

(** Running a method on an object: the calls made, in order (a call that
    raises is still a call), and either the exception or the returned value
    with the object as the method left it. *)
Record Outcome (T E A : Type) := mkOutcome {
  calls : list Call;
  result : exn E + (A * Instance T)
}.
Arguments mkOutcome {T E A}.
Arguments calls {T E A}.
Arguments result {T E A}.

Definition M (T E A : Type) : Type := Instance T → Outcome T E A.


(** [raise Exception(msg)]: what an error of the recipe's own would be. *)
Definition raise {T E A} (msg : string) : M T E A :=
  λ _, mkOutcome [] (inl (RecipeError msg)).

(** Statement sequencing: an exception in [m] ends the method. *)
Definition bind {T E A B} (m : M T E A) (k : A → M T E B) : M T E B :=
  λ self,
    let o := m self in
    match result o with
    | inl e => mkOutcome (calls o) (inl e)
    | inr (a, self') =>
        let o' := k a self' in
        mkOutcome (calls o ++ calls o') (result o')
    end.

(** What the caller sees of a call into the package manager. *)
Definition from_tool {T E} (r : E + Instance T) : exn E + (unit * Instance T) :=
  match r with
  | inl e => inl (ToolError e)
  | inr self' => inr ((), self')
  end.

(** A call into the package manager: recorded, then answered by [f]. *)
Definition call {T E} (c : Call) (f : Instance T → E + Instance T)
  : M T E unit :=
  λ self, mkOutcome [c] (from_tool (f self)).

(** The method returned instead of raising. *)
Definition succeeds {T E A} (o : Outcome T E A) : Prop :=
  ∃ a self', result o = inr (a, self').

(** The references handed to [self.requires], in call order. *)
Definition required_refs (cs : list Call) : list string :=
  omap (λ c, match c with CallRequires ref => Some ref | CallCmakeLayout => None end) cs.

(** The package names of those references. *)
Definition declared_names (cs : list Call) : list string :=
  omap Ref.name (required_refs cs).

(** The version requested for the package called [name]. *)
Definition declared_version (cs : list Call) (name : string) : option string :=
  list_find (λ ref, Ref.name ref = Some name) (required_refs cs)
  ≫= λ found, Ref.version found.2.

End Py.

Import Py.

Notation "m1 ;;; m2" := (Py.bind m1 (λ _, m2))
  (at level 100, m2 at level 200, right associativity).

Section Calls.
Context {T E : Type} `{ConanTool T E}.

(** [self.requires(ref)] *)
Definition requires (ref : string) : M T E unit :=
  call (CallRequires ref) (ConanFile_requires ref).

(** [cmake_layout(self)] *)
Definition cmake_layout : M T E unit :=
  call CallCmakeLayout tools_cmake_layout.

(** The entry point of the package manager that a recorded call went to. *)
Definition entry_point (c : Call) : Instance T → E + Instance T :=
  match c with
  | CallRequires ref => ConanFile_requires ref
  | CallCmakeLayout => tools_cmake_layout
  end.


End Calls.

(** ** The recipe class *)

Module Conan.

Definition settings : list string := ["os"; "compiler"; "build_type"; "arch"].

Definition generators : list string := ["CMakeDeps"; "CMakeToolchain"].

(** The dict literal, entries inserted in the order they are written. *)
Definition default_options : gmap string bool :=
  <["spdlog/*:shared" := true]>
    (<["fmt/*:shared" := true]>
       (<["gtest/*:shared" := true]> ∅)).

(** [Conan()]: a fresh object sees the class attributes; [t] is what the
    package manager puts on the object when it loads the recipe. *)
Definition new {T} (t : T) : Instance T :=
  mkInstance settings generators default_options t.

Section Methods.
Context {T E : Type} `{ConanTool T E}.

Definition requirements : M T E unit :=
  λ self,
    (requires "gtest/1.14.0" ;;;
     requires "fmt/10.2.1" ;;;
     requires "spdlog/1.14.1") self.

Definition layout : M T E unit :=
  λ self, cmake_layout self.

(** The methods of the class, for a caller that picks which to invoke. *)
Inductive Method := Requirements | Layout.

Definition invoke (m : Method) : M T E unit :=
  match m with
  | Requirements => requirements
  | Layout => layout
  end.


End Methods.


End Conan.

(** ** A small package manager to run the recipe against

    It keeps the requirement list and the build folder on the object, refuses
    a reference that is already required, and never touches the declarative
    attributes.  [profile] holds the values chosen for the build axes. *)

Module SampleTool.

Record state := mkState {
  profile : list (string * string);
  requirement_list : list string;
  build_folder : option string
}.

Inductive error := DuplicatedRequirement (ref : string).

Definition with_state (self : Instance state) (t : state) : Instance state :=
  mkInstance (attr_settings self) (attr_generators self)
    (attr_default_options self) t.

Definition sample_requires (ref : string) (self : Instance state)
  : error + Instance state :=
  let t := tool_state self in
  if bool_decide (ref ∈ requirement_list t) then inl (DuplicatedRequirement ref)
  else inr (with_state self
              (mkState (profile t) (requirement_list t ++ [ref]) (build_folder t))).

(** The layout helper sets the folders of the object; here, the build
    folder. *)
Definition sample_cmake_layout (self : Instance state)
  : error + Instance state :=
  let t := tool_state self in
  inr (with_state self (mkState (profile t) (requirement_list t) (Some "build"))).

#[global] Instance tool : ConanTool state error := {
  ConanFile_requires := sample_requires;
  tools_cmake_layout := sample_cmake_layout
}.

Definition linux_release : state :=
  mkState [("os", "Linux"); ("compiler", "gcc"); ("build_type", "Release");
           ("arch", "x86_64")] [] None.

Definition windows_debug : state :=
  mkState [("os", "Windows"); ("compiler", "msvc"); ("build_type", "Debug");
           ("arch", "armv8")] [] None.

(** An object on which [fmt/10.2.1] has been required before. *)
Definition fmt_already_required : state :=
  mkState (profile linux_release) ["fmt/10.2.1"] None.

End SampleTool.

(** ** Package names

    A package name as the recipe writes them ([gtest], [fmt], [spdlog]): it
    holds neither a wildcard of the pattern language nor the separator of a
    reference. *)
Fixpoint plain_name (n : string) : bool :=
  match n with
  | EmptyString => true
  | String c n' =>
      negb (Ascii.eqb c "*") && negb (Ascii.eqb c "?") && negb (Ascii.eqb c "/")
      && plain_name n'
  end.

(** * Properties *)

(** ** The method monad *)

Section MonadFacts.
Context {T E : Type}.

Lemma call_calls (c : Call) (f : Instance T → E + Instance T) self :
  calls (call c f self) = [c].
Proof. reflexivity. Qed.

Lemma call_returns (c : Call) (f : Instance T → E + Instance T) self a self' :
  result (call c f self) = inr (a, self') → f self = inr self'.
Proof.
  unfold call, from_tool; simpl.
  destruct (f self) as [e|s]; intros Hr; [discriminate|].
  by injection Hr as _ ->.
Qed.

Lemma call_raises (c : Call) (f : Instance T → E + Instance T) self x :
  result (call c f self) = inl x → ∃ e, f self = inl e ∧ x = ToolError e.
Proof.
  unfold call, from_tool; simpl.
  destruct (f self) as [e|s]; intros Hr; [|discriminate].
  injection Hr as <-. by exists e.
Qed.

Lemma bind_returns {A B} (m : M T E A) (k : A → M T E B) self b self'' :
  result (bind m k self) = inr (b, self'') →
  ∃ a self',
    result (m self) = inr (a, self')
    ∧ result (k a self') = inr (b, self'')
    ∧ calls (bind m k self) = calls (m self) ++ calls (k a self').
Proof.
  unfold bind.
  destruct (result (m self)) as [e|[a self']] eqn:Hm; simpl; [discriminate|].
  intros Hk. by exists a, self'.
Qed.

Lemma bind_raises {A B} (m : M T E A) (k : A → M T E B) self x :
  result (bind m k self) = inl x →
  (result (m self) = inl x ∧ calls (bind m k self) = calls (m self))
  ∨ ∃ a self',
      result (m self) = inr (a, self')
      ∧ result (k a self') = inl x
      ∧ calls (bind m k self) = calls (m self) ++ calls (k a self').
Proof.
  unfold bind.
  destruct (result (m self)) as [e|[a self']] eqn:Hm; simpl.
  - intros [= ->]. by left.
  - intros Hk. right. by exists a, self'.
Qed.

Lemma bind_calls_prefix {A B} (m : M T E A) (k : A → M T E B) self :
  calls (m self) `prefix_of` calls (bind m k self).
Proof.
  unfold bind.
  destruct (result (m self)) as [e|[a self']]; simpl.
  - done.
  - by apply prefix_app_r.
Qed.

End MonadFacts.

(** ** What [requirements] and [layout] do, whatever the tool *)

Section RecipeFacts.
Context {T E : Type} `{ConanTool T E}.

Lemma requirements_returns self self' :
  result (Conan.requirements self) = inr ((), self') →
  ∃ s1 s2,
    ConanFile_requires "gtest/1.14.0" self = inr s1
    ∧ ConanFile_requires "fmt/10.2.1" s1 = inr s2
    ∧ ConanFile_requires "spdlog/1.14.1" s2 = inr self'.
Proof.
  unfold Conan.requirements. intros Hr.
  apply bind_returns in Hr as (? & s1 & H1 & Hr & _).
  apply bind_returns in Hr as (? & s2 & H2 & H3 & _).
  apply call_returns in H1, H2, H3.
  by exists s1, s2.
Qed.

Lemma requirements_calls self :
  succeeds (Conan.requirements self) →
  calls (Conan.requirements self)
  = [CallRequires "gtest/1.14.0"; CallRequires "fmt/10.2.1";
     CallRequires "spdlog/1.14.1"].
Proof.
  intros (a & self' & Hr). unfold Conan.requirements in *.
  apply bind_returns in Hr as (? & s1 & _ & Hr & ->).
  apply bind_returns in Hr as (? & s2 & _ & _ & ->).
  reflexivity.
Qed.


Lemma requirements_raises self x :
  result (Conan.requirements self) = inl x →
  ∃ e ref self0,
    x = ToolError e
    ∧ ConanFile_requires ref self0 = inl e
    ∧ last (calls (Conan.requirements self)) = Some (CallRequires ref).
Proof.
  unfold Conan.requirements. intros Hr.
  apply bind_raises in Hr as [[H1 ->]|(? & s1 & _ & Hr & ->)].
  { apply call_raises in H1 as (e & H1 & ->). by exists e, "gtest/1.14.0", self. }
  apply bind_raises in Hr as [[H2 ->]|(? & s2 & _ & H3 & ->)].
  { apply call_raises in H2 as (e & H2 & ->). by exists e, "fmt/10.2.1", s1. }
  apply call_raises in H3 as (e & H3 & ->). by exists e, "spdlog/1.14.1", s2.
Qed.

Lemma layout_unfold self :
  Conan.layout self
  = mkOutcome [CallCmakeLayout] (from_tool (tools_cmake_layout self)).
Proof. reflexivity. Qed.

End RecipeFacts.

Lemma fnmatchcase_star (s : string) : Text.fnmatchcase_pat "*" s = true.
Proof. induction s as [|c s IH]; [reflexivity|exact IH]. Qed.

(** ** The declarative attributes *)

(** C3: the build axes declared in [settings] are exactly the operating
    system, the compiler, the build type and the target architecture: each
    of the four is declared, nothing else is, and none is declared twice. *)
Theorem settings_are_the_four_axes :
  (∀ axis : string,
     axis ∈ Conan.settings
     ↔ axis = "os" ∨ axis = "compiler" ∨ axis = "build_type" ∨ axis = "arch")
  ∧ NoDup Conan.settings
  ∧ length Conan.settings = 4.
Proof.
  split; [|split; [|reflexivity]].
  - intros axis. unfold Conan.settings.
    rewrite !elem_of_cons, elem_of_nil. tauto.
  - unfold Conan.settings. by apply (bool_decide_unpack _).
Qed.

(** C5: [generators] names exactly two generators, the package manager's own
    [CMakeDeps] (dependency metadata) and [CMakeToolchain] (toolchain
    configuration), and nothing else. *)
Theorem generators_are_the_two_standard_ones :
  (∀ g : string,
     g ∈ Conan.generators ↔ g = "CMakeDeps" ∨ g = "CMakeToolchain")
  ∧ NoDup Conan.generators
  ∧ length Conan.generators = 2.
Proof.
  split; [|split; [|reflexivity]].
  - intros g. unfold Conan.generators.
    rewrite !elem_of_cons, elem_of_nil. tauto.
  - unfold Conan.generators. by apply (bool_decide_unpack _).
Qed.

(** ** The requirements *)

(** C1: whenever [requirements] returns, the version it has requested is
    1.14.0 for gtest, 10.2.1 for fmt and 1.14.1 for spdlog. *)
Theorem requirements_pins_versions {T E} `{ConanTool T E} (self : Instance T) :
  succeeds (Conan.requirements self) →
  declared_version (calls (Conan.requirements self)) "gtest" = Some "1.14.0"
  ∧ declared_version (calls (Conan.requirements self)) "fmt" = Some "10.2.1"
  ∧ declared_version (calls (Conan.requirements self)) "spdlog" = Some "1.14.1".
Proof.
  intros Hok. rewrite (requirements_calls self Hok).
  repeat split; reflexivity.
Qed.

Lemma requirements_pins_versions_witness :
  succeeds (Conan.requirements (Conan.new SampleTool.linux_release))
  ∧ declared_version
      (calls (Conan.requirements (Conan.new SampleTool.linux_release)))
      "spdlog" = Some "1.14.1".
Proof.
  assert (Hok : succeeds (Conan.requirements (Conan.new SampleTool.linux_release)))
    by (eexists _, _; reflexivity).
  split; [exact Hok|].
  apply (requirements_pins_versions (Conan.new SampleTool.linux_release) Hok).
Defined.

(** C4: whenever [requirements] returns, it has declared exactly three
    requirements, no more and no fewer: one on gtest, one on fmt and one on
    spdlog, and it has made no other call. *)
Theorem requirements_declares_three {T E} `{ConanTool T E} (self : Instance T) :
  succeeds (Conan.requirements self) →
  length (calls (Conan.requirements self)) = 3
  ∧ length (required_refs (calls (Conan.requirements self))) = 3
  ∧ declared_names (calls (Conan.requirements self)) = ["gtest"; "fmt"; "spdlog"]
  ∧ NoDup (declared_names (calls (Conan.requirements self))).
Proof.
  intros Hok. rewrite (requirements_calls self Hok).
  repeat split. by apply (bool_decide_unpack _).
Qed.

Lemma requirements_declares_three_witness :
  succeeds (Conan.requirements (Conan.new SampleTool.windows_debug))
  ∧ length (required_refs
              (calls (Conan.requirements (Conan.new SampleTool.windows_debug))))
    = 3.
Proof.
  assert (Hok : succeeds (Conan.requirements (Conan.new SampleTool.windows_debug)))
    by (eexists _, _; reflexivity).
  split; [exact Hok|].
  apply (requirements_declares_three (Conan.new SampleTool.windows_debug) Hok).
Defined.

(** C10: two runs of [requirements] that return have made the same calls in
    the same order, the three requirements of the recipe, whatever the two
    package managers, their states and the objects' attribute values are. *)
Theorem requirements_is_deterministic
    {T1 E1} `{ConanTool T1 E1} {T2 E2} `{ConanTool T2 E2}
    (self1 : Instance T1) (self2 : Instance T2) :
  succeeds (Conan.requirements self1) →
  succeeds (Conan.requirements self2) →
  calls (Conan.requirements self1) = calls (Conan.requirements self2)
  ∧ required_refs (calls (Conan.requirements self1))
    = ["gtest/1.14.0"; "fmt/10.2.1"; "spdlog/1.14.1"].
Proof.
  intros Hok1 Hok2.
  rewrite (requirements_calls self1 Hok1), (requirements_calls self2 Hok2).
  split; reflexivity.
Qed.

Lemma requirements_is_deterministic_witness :
  calls (Conan.requirements (Conan.new SampleTool.linux_release))
  = calls (Conan.requirements
             (mkInstance ["arch"] [] ∅ SampleTool.windows_debug)).
Proof.
  refine (proj1 (requirements_is_deterministic
                   (Conan.new SampleTool.linux_release)
                   (mkInstance ["arch"] [] ∅ SampleTool.windows_debug) _ _));
    eexists _, _; reflexivity.
Defined.

(** ** The layout *)

(** C6: [layout] makes one call, to [cmake_layout], on the very object it was
    invoked on, and its outcome is the outcome of that call: the helper's
    exception if it raises, otherwise the object exactly as the helper
    returned it. *)
Theorem layout_delegates_to_cmake_layout {T E} `{ConanTool T E}
    (self : Instance T) :
  calls (Conan.layout self) = [CallCmakeLayout]
  ∧ result (Conan.layout self) = from_tool (tools_cmake_layout self)
  ∧ Conan.layout self = cmake_layout self.
Proof. repeat split. Qed.

(** ** Exceptions *)

(** C7: an exception leaving [requirements] or [layout] is never one of the
    recipe's own.  It is the exception that the package manager raised in the
    last call the method made, passed on as it was: the recipe neither raises
    nor catches anything. *)
Theorem methods_raise_only_tool_errors {T E} `{ConanTool T E}
    (m : Conan.Method) (self : Instance T) (x : exn E) :
  result (Conan.invoke m self) = inl x →
  (∀ msg, x ≠ RecipeError msg)
  ∧ ∃ e c self0,
      x = ToolError e
      ∧ last (calls (Conan.invoke m self)) = Some c
      ∧ entry_point c self0 = inl e.
Proof.
  intros Hr.
  assert (∃ e c self0, x = ToolError e
                       ∧ last (calls (Conan.invoke m self)) = Some c
                       ∧ entry_point c self0 = inl e) as Hfrom.
  { destruct m; cbn [Conan.invoke] in *.
    - apply requirements_raises in Hr as (e & ref & self0 & -> & Hcall & Hlast).
      by exists e, (CallRequires ref), self0.
    - apply call_raises in Hr as (e & Hcall & ->).
      by exists e, CallCmakeLayout, self. }
  split; [|exact Hfrom].
  destruct Hfrom as (e & _ & _ & -> & _). discriminate.
Qed.

Lemma methods_raise_only_tool_errors_witness :
  ∃ e c self0,
    ToolError (SampleTool.DuplicatedRequirement "fmt/10.2.1") = ToolError e
    ∧ last (calls (Conan.invoke Conan.Requirements
                     (Conan.new SampleTool.fmt_already_required))) = Some c
    ∧ entry_point c self0 = inl e.
Proof.
  refine (proj2 (methods_raise_only_tool_errors Conan.Requirements
                   (Conan.new SampleTool.fmt_already_required)
                   (ToolError (SampleTool.DuplicatedRequirement "fmt/10.2.1"))
                   _)).
  reflexivity.
Defined.

(** ** The declarative state is not mutated *)




Section Frame.
Context {T E : Type} `{ConanTool T E}.






End Frame.




(** ** Shared linkage *)

(** C2: every value in [default_options] is [True], and for each requirement
    that [requirements] declares, the value the options give to the [shared]
    option of that package is [True] and nothing else. *)
Theorem default_options_make_dependencies_shared {T E} `{ConanTool T E}
    (self : Instance T) (ref : string) :
  succeeds (Conan.requirements self) →
  ref ∈ required_refs (calls (Conan.requirements self)) →
  map_Forall (λ _ value, value = true) Conan.default_options
  ∧ Ref.option_values Conan.default_options "shared" ref = [true].
Proof.
  intros Hok Href. rewrite (requirements_calls self Hok) in Href.
  split.
  - unfold Conan.default_options.
    repeat (apply map_Forall_insert_2; [reflexivity|]).
    apply map_Forall_empty.
  - cbn [required_refs omap list_omap] in Href.
    rewrite !elem_of_cons, elem_of_nil in Href.
    destruct Href as [->|[->|[->|[]]]]; vm_compute; reflexivity.
Qed.

Lemma default_options_make_dependencies_shared_witness :
  Ref.option_values Conan.default_options "shared" "fmt/10.2.1" = [true].
Proof.
  refine (proj2 (default_options_make_dependencies_shared
                   (Conan.new SampleTool.linux_release) "fmt/10.2.1" _ _)).
  - eexists _, _; reflexivity.
  - apply (bool_decide_unpack _). vm_compute. exact I.
Defined.

(** C9: the option that makes a declared dependency shared is keyed by the
    package name and the version wildcard [*], not by the version given to
    [requires]: one and the same entry of [default_options] reaches the
    package at every version, and gives [shared] the value [True] there. *)
Theorem shared_option_covers_every_version {T E} `{ConanTool T E}
    (self : Instance T) (name : string) :
  succeeds (Conan.requirements self) →
  name ∈ declared_names (calls (Conan.requirements self)) →
  ∃ key,
    Conan.default_options !! key = Some true
    ∧ Ref.scoped_option key = Some (name +:+ "/*", "shared")
    ∧ Ref.version_pattern key = Some "*"
    ∧ ∀ version,
        Ref.applies key (name +:+ "/" +:+ version) = true
        ∧ Ref.option_values Conan.default_options "shared"
            (name +:+ "/" +:+ version) = [true].
Proof.
  intros Hok Hname. rewrite (requirements_calls self Hok) in Hname.
  change (name ∈ ["gtest"; "fmt"; "spdlog"]) in Hname.
  rewrite !elem_of_cons, elem_of_nil in Hname.
  destruct Hname as [->|[->|[->|[]]]];
    [exists "gtest/*:shared"|exists "fmt/*:shared"|exists "spdlog/*:shared"];
    (split; [reflexivity|]); (split; [reflexivity|]); (split; [reflexivity|]);
    intros version; pose proof (fnmatchcase_star version) as Hstar;
    (split; [exact Hstar|]);
    vm_compute in Hstar |- *; rewrite Hstar; reflexivity.
Qed.

Lemma shared_option_covers_every_version_witness :
  ∃ key,
    Conan.default_options !! key = Some true
    ∧ Ref.version_pattern key = Some "*"
    ∧ Ref.option_values Conan.default_options "shared" "spdlog/1.15.0" = [true].
Proof.
  destruct (shared_option_covers_every_version
              (Conan.new SampleTool.windows_debug) "spdlog")
    as (key & Hlookup & _ & Hpattern & Hall).
  - eexists _, _; reflexivity.
  - apply (bool_decide_unpack _). vm_compute. exact I.
  - exists key. split; [exact Hlookup|]. split; [exact Hpattern|].
    exact (proj2 (Hall "1.15.0")).
Defined.

(** * Further properties of the recipe *)

(** ** How [requirements] runs *)

(** [requirements] returns exactly when the package manager accepts gtest on
    the object given, then fmt on the object that call returned, then spdlog
    on the object the second call returned; the object [requirements] leaves
    is the one the third call returned, with no change of the recipe's own. *)
Theorem requirements_returns_iff {T E} `{ConanTool T E}
    (self self' : Instance T) :
  result (Conan.requirements self) = inr ((), self')
  ↔ ∃ s1 s2,
      ConanFile_requires "gtest/1.14.0" self = inr s1
      ∧ ConanFile_requires "fmt/10.2.1" s1 = inr s2
      ∧ ConanFile_requires "spdlog/1.14.1" s2 = inr self'.
Proof.
  split; [apply requirements_returns|].
  intros (s1 & s2 & H1 & H2 & H3).
  unfold Conan.requirements, bind, requires, call; simpl.
  rewrite H1; simpl. rewrite H2; simpl. by rewrite H3.
Qed.

(** When [requirements] raises, it has stopped at the reference the package
    manager refused: the references before it were requested in order, the
    refused one is the last request, and those after it were never
    requested. *)
Theorem requirements_stops_at_refusal {T E} `{ConanTool T E}
    (self : Instance T) (x : exn E) :
  result (Conan.requirements self) = inl x →
  ∃ accepted ref skipped e self0,
    ["gtest/1.14.0"; "fmt/10.2.1"; "spdlog/1.14.1"] = accepted ++ ref :: skipped
    ∧ required_refs (calls (Conan.requirements self)) = accepted ++ [ref]
    ∧ ConanFile_requires ref self0 = inl e
    ∧ x = ToolError e.
Proof.
  unfold Conan.requirements. intros Hr.
  apply bind_raises in Hr as [[H1 ->]|(? & s1 & _ & Hr & ->)].
  { apply call_raises in H1 as (e & H1 & ->).
    by exists [], "gtest/1.14.0", ["fmt/10.2.1"; "spdlog/1.14.1"], e, self. }
  apply bind_raises in Hr as [[H2 ->]|(? & s2 & _ & H3 & ->)].
  { apply call_raises in H2 as (e & H2 & ->).
    by exists ["gtest/1.14.0"], "fmt/10.2.1", ["spdlog/1.14.1"], e, s1. }
  apply call_raises in H3 as (e & H3 & ->).
  by exists ["gtest/1.14.0"; "fmt/10.2.1"], "spdlog/1.14.1", [], e, s2.
Qed.

Lemma requirements_stops_at_refusal_witness :
  ∃ accepted ref skipped e self0,
    ["gtest/1.14.0"; "fmt/10.2.1"; "spdlog/1.14.1"] = accepted ++ ref :: skipped
    ∧ required_refs
        (calls (Conan.requirements (Conan.new SampleTool.fmt_already_required)))
      = accepted ++ [ref]
    ∧ ConanFile_requires ref self0 = inl e
    ∧ ToolError (SampleTool.DuplicatedRequirement "fmt/10.2.1") = ToolError e.
Proof.
  apply (requirements_stops_at_refusal
           (Conan.new SampleTool.fmt_already_required)
           (ToolError (SampleTool.DuplicatedRequirement "fmt/10.2.1"))).
  reflexivity.
Defined.

(** Whether they return or raise, [requirements] makes between one and three
    calls and none of them is the layout helper, and [layout] requests no
    requirement. *)
Theorem methods_keep_to_their_calls {T E} `{ConanTool T E} (self : Instance T) :
  (1 ≤ length (calls (Conan.requirements self)) ≤ 3)%nat
  ∧ (CallCmakeLayout ∉ calls (Conan.requirements self))
  ∧ required_refs (calls (Conan.layout self)) = [].
Proof.
  assert (∃ n, (1 ≤ n ≤ 3)%nat
               ∧ calls (Conan.requirements self)
                 = take n [CallRequires "gtest/1.14.0"; CallRequires "fmt/10.2.1";
                           CallRequires "spdlog/1.14.1"]) as (n & Hn & Hcalls).
  { unfold Conan.requirements, bind, requires, call; simpl.
    destruct (ConanFile_requires "gtest/1.14.0" self) as [e|s1]; simpl.
    { exists 1. split; [lia|done]. }
    destruct (ConanFile_requires "fmt/10.2.1" s1) as [e|s2]; simpl.
    { exists 2. split; [lia|done]. }
    exists 3. split; [lia|done]. }
  rewrite Hcalls. split; [|split; [|reflexivity]].
  - rewrite length_take. simpl. lia.
  - intros Hin. apply elem_of_take in Hin as (i & Hin & _).
    destruct i as [|[|[|i]]]; simpl in Hin; discriminate.
Qed.

(** ** Which packages the options reach *)

Section NameWildcard.
#[local] Arguments Ascii.eqb : simpl never.

Lemma name_cons (c : ascii) (r n : string) :
  Ascii.eqb c "/" = false →
  Ref.name (String c r) = Some n
  ↔ ∃ n', n = String c n' ∧ Ref.name r = Some n'.
Proof.
  intros Hc. unfold Ref.name, Ref.parse. simpl. rewrite Hc.
  destruct (Text.split_once "/" r) as [[before after]|]; simpl.
  - split.
    + intros [= <-]. by exists before.
    + intros (n' & -> & [= <-]). done.
  - split; [discriminate|]. by intros (n' & _ & ?).
Qed.

(** A pattern [name/*] matches exactly the references of the package
    [name]. *)
Lemma fnmatchcase_name_wildcard (n : string) :
  plain_name n = true →
  ∀ ref, Text.fnmatchcase ref (n +:+ "/*")
         = bool_decide (Ref.name ref = Some n).
Proof.
  unfold Text.fnmatchcase.
  induction n as [|p n IH]; intros Hplain ref.
  - destruct ref as [|c r]; [done|].
    change (Text.fnmatchcase_pat ("" +:+ "/*") (String c r))
      with (Ascii.eqb "/" c && Text.fnmatchcase_pat "*" r).
    rewrite fnmatchcase_star, andb_true_r.
    rewrite (Ascii.eqb_sym "/" c). unfold Ref.name, Ref.parse. simpl.
    destruct (Ascii.eqb c "/") eqn:Hc; [done|].
    symmetry. apply bool_decide_eq_false_2.
    destruct (Text.split_once "/" r) as [[before after]|]; simpl; discriminate.
  - simpl in Hplain.
    apply andb_prop in Hplain as [Hplain Hrest].
    apply andb_prop in Hplain as [Hplain Hslash].
    apply andb_prop in Hplain as [Hstar Hquery].
    apply negb_true_iff in Hstar, Hquery, Hslash.
    destruct ref as [|c r]; [simpl; by rewrite Hstar|].
    simpl. rewrite Hstar, Hquery. simpl. rewrite (IH Hrest r).
    destruct (Ascii.eqb c "/") eqn:Hc.
    + apply Ascii.eqb_eq in Hc as ->. by rewrite Hslash.
    + destruct (Ascii.eqb p c) eqn:Hpc; simpl.
      * apply Ascii.eqb_eq in Hpc as ->.
        apply bool_decide_ext. rewrite (name_cons c r _ Hc).
        split; [intros Hn; by exists n|intros (n' & [= <-] & Hn); done].
      * symmetry. apply bool_decide_eq_false_2.
        rewrite (name_cons c r _ Hc). intros (n' & [= -> _] & _).
        by rewrite Ascii.eqb_refl in Hpc.
Qed.

End NameWildcard.

Lemma default_options_entries :
  map_to_list Conan.default_options
  = [("gtest/*:shared", true); ("spdlog/*:shared", true);
     ("fmt/*:shared", true)].
Proof. vm_compute. reflexivity. Qed.

Lemma applies_name_wildcard (n ref : string) :
  plain_name n = true →
  Ref.scoped_option (n +:+ "/*:shared") = Some (n +:+ "/*", "shared") →
  Ref.applies (n +:+ "/*:shared") ref = bool_decide (Ref.name ref = Some n).
Proof.
  intros Hplain Hkey. unfold Ref.applies. rewrite Hkey.
  by apply fnmatchcase_name_wildcard.
Qed.

(** For every package reference, the options of the recipe give [shared] the
    single value [True] when the package is gtest, fmt or spdlog, and no
    value at all otherwise: no other package is made shared, and no package
    is reached by two entries. *)
Theorem shared_option_reaches_exactly_the_dependencies (ref : string) :
  Ref.option_values Conan.default_options "shared" ref
  = if bool_decide (Ref.name ref ∈ [Some "gtest"; Some "fmt"; Some "spdlog"])
    then [true] else [].
Proof.
  unfold Ref.option_values. rewrite default_options_entries.
  cbn [omap list_omap fst snd].
  pose proof (applies_name_wildcard "gtest" ref eq_refl eq_refl) as Hgtest.
  pose proof (applies_name_wildcard "spdlog" ref eq_refl eq_refl) as Hspdlog.
  pose proof (applies_name_wildcard "fmt" ref eq_refl eq_refl) as Hfmt.
  change ("gtest" +:+ "/*:shared") with "gtest/*:shared" in Hgtest.
  change ("spdlog" +:+ "/*:shared") with "spdlog/*:shared" in Hspdlog.
  change ("fmt" +:+ "/*:shared") with "fmt/*:shared" in Hfmt.
  rewrite Hgtest, Hspdlog, Hfmt.
  rewrite !(bool_decide_eq_true_2 (_ = Some "shared")) by reflexivity.
  rewrite !andb_true_r.
  repeat case_bool_decide; try reflexivity;
    repeat match goal with
      | Hin : _ ∈ _ |- _ => rewrite !elem_of_cons, elem_of_nil in Hin
      | Hin : ¬ (_ ∈ _) |- _ => rewrite !elem_of_cons, elem_of_nil in Hin
      end;
    try congruence; exfalso; tauto.
Qed.

(** The recipe sets no option but [shared]: for any other option name, the
    options give no value to any package. *)
Theorem default_options_set_only_shared (opt ref : string) :
  opt ≠ "shared" →
  Ref.option_values Conan.default_options opt ref = [].
Proof.
  intros Hopt. unfold Ref.option_values. rewrite default_options_entries.
  cbn [omap list_omap fst snd].
  assert (∀ key, Ref.option_name key = Some "shared" →
                 bool_decide (Ref.option_name key = Some opt) = false) as Hno.
  { intros key ->. apply bool_decide_eq_false_2. congruence. }
  rewrite !Hno by reflexivity. by rewrite !andb_false_r.
Qed.

Lemma default_options_set_only_shared_witness :
  Ref.option_values Conan.default_options "fPIC" "fmt/10.2.1" = [].
Proof.
  apply (default_options_set_only_shared "fPIC" "fmt/10.2.1").
  discriminate.
Defined.

(** Every entry of [default_options] belongs to a dependency: whenever
    [requirements] returns, each key is [name/*:shared] for a package name
    that [requirements] has declared, and its value is [True]; there is no
    entry for a package the recipe does not require. *)
Theorem default_options_entries_are_dependencies {T E} `{ConanTool T E}
    (self : Instance T) (key : string) (value : bool) :
  succeeds (Conan.requirements self) →
  Conan.default_options !! key = Some value →
  value = true
  ∧ ∃ name,
      name ∈ declared_names (calls (Conan.requirements self))
      ∧ key = name +:+ "/*:shared"
      ∧ Ref.scoped_option key = Some (name +:+ "/*", "shared").
Proof.
  intros Hok Hkey. rewrite (requirements_calls self Hok).
  change (declared_names _) with ["gtest"; "fmt"; "spdlog"].
  unfold Conan.default_options in Hkey.
  repeat (apply lookup_insert_Some in Hkey as [[<- <-]|[_ Hkey]];
          [split; [reflexivity|]|]).
  - exists "spdlog". rewrite !elem_of_cons. by repeat split; auto.
  - exists "fmt". rewrite !elem_of_cons. by repeat split; auto.
  - exists "gtest". rewrite !elem_of_cons. by repeat split; auto.
  - by rewrite lookup_empty in Hkey.
Qed.

Lemma default_options_entries_are_dependencies_witness :
  true = true
  ∧ ∃ name,
      name ∈ declared_names
               (calls (Conan.requirements (Conan.new SampleTool.linux_release)))
      ∧ "fmt/*:shared" = name +:+ "/*:shared"
      ∧ Ref.scoped_option "fmt/*:shared" = Some (name +:+ "/*", "shared").
Proof.
  apply (default_options_entries_are_dependencies
           (Conan.new SampleTool.linux_release) "fmt/*:shared" true).
  - eexists _, _; reflexivity.
  - vm_compute. reflexivity.
Defined.
